(** * logseq-mcp: the Logseq API client and its response normalisation

    A shallow embedding of class [LogseqAPIClient] of
    [src/logseq_mcp/client/logseq_client.py].  The tools of
    [src/logseq_mcp/tools/pages.py] and [src/logseq_mcp/tools/blocks.py]
    forward their arguments to the method of the same name and return
    its result, so every statement about a method is one about its tool.

    Python values that travel through the client are JSON values; the
    Python operations the client applies to them ([isinstance], [in],
    [.get], truthiness, [or]) are modelled with the exceptions they raise
    on values of the wrong type, so that "never raises" is a theorem about
    the guards of the code and not a property of the encoding. *)

From stdpp Require Import base option list strings gmap fin_maps.
From Stdlib Require Import ZArith String.

Local Open Scope string_scope.
Local Open Scope Z_scope.

Set Warnings "-register-all".

(** ** JSON values *)

(** What [json.loads] produces and [json.dumps] accepts: [None], [bool],
    [int], [float] (kept as its IEEE-754 binary64 bit pattern), [str],
    [list] and [dict] with string keys. *)
Inductive json : Type :=
| JNull : json
| JBool (b : bool) : json
| JInt (n : Z) : json
| JFloat (bits : Z) : json
| JStr (s : string) : json
| JList (l : list json) : json
| JDict (m : gmap string json) : json.

(** ** Exceptions and results *)

(** The exception classes that matter here.  [RequestException] is the
    root of the hierarchy of the [requests] library; [ConnectionError],
    [Timeout], [HTTPError] and [JSONDecodeError] derive from it.  The
    others are Python builtins. *)
Inductive exn_class : Type :=
| RequestException
| ConnectionError
| Timeout
| HTTPError
| JSONDecodeError
| AttributeError
| TypeError
| ValueError.

Record exn : Type := Exn { exn_cls : exn_class; exn_msg : string }.

(** [issubclass(c, requests.exceptions.RequestException)]. *)
Definition is_request_exception (c : exn_class) : bool :=
  match c with
  | RequestException | ConnectionError | Timeout | HTTPError
  | JSONDecodeError => true
  | AttributeError | TypeError | ValueError => false
  end.

(** The outcome of evaluating Python code: a value or a raised exception. *)
Inductive result (A : Type) : Type :=
| Return (a : A)
| Raise (e : exn).
Arguments Return {A} a.
Arguments Raise {A} e.

#[global] Instance result_ret : MRet result := @Return.

#[global] Instance result_bind : MBind result := fun A B k r =>
  match r with
  | Return a => k a
  | Raise e => Raise e
  end.

(** [try: r except requests.exceptions.RequestException as e: h e]. *)
Definition try_except_request {A : Type}
    (r : result A) (h : exn -> result A) : result A :=
  match r with
  | Return a => Return a
  | Raise e => if is_request_exception (exn_cls e) then h e else Raise e
  end.

Definition returns {A : Type} (r : result A) : Prop := exists a, r = Return a.

(** ** The Python operations the client uses *)

Definition isinstance_list (v : json) : bool :=
  match v with JList _ => true | _ => false end.

Definition isinstance_dict (v : json) : bool :=
  match v with JDict _ => true | _ => false end.

(** [v is None]. *)
Definition is_None (v : json) : bool :=
  match v with JNull => true | _ => false end.

(** [type(v).__name__], as it appears in Python's error messages. *)
Definition type_name (v : json) : string :=
  match v with
  | JNull => "NoneType"
  | JBool _ => "bool"
  | JInt _ => "int"
  | JFloat _ => "float"
  | JStr _ => "str"
  | JList _ => "list"
  | JDict _ => "dict"
  end.

(** [k in s] for two strings: [k] occurs in [s]. *)
Definition substringb (k s : string) : bool :=
  match String.index 0 k s with Some _ => true | None => false end.

(** [k in v] for a string [k]: key membership in a dict, element
    membership in a list (a [str] is equal only to a [str]), substring
    test in a string; the other JSON types are not containers. *)
Definition py_in (k : string) (v : json) : result bool :=
  match v with
  | JDict m => Return (bool_decide (is_Some (m !! k)))
  | JList l =>
      Return (existsb (fun x => match x with
                                | JStr s => String.eqb k s
                                | _ => false
                                end) l)
  | JStr s => Return (substringb k s)
  | _ => Raise (Exn TypeError
                  ("argument of type '" ++ type_name v ++ "' is not iterable"))
  end.

(** [v.get(k, d)]: only [dict] has a [get] method. *)
Definition py_get (v : json) (k : string) (d : json) : result json :=
  match v with
  | JDict m => Return (default d (m !! k))
  | _ => Raise (Exn AttributeError
                  ("'" ++ type_name v ++ "' object has no attribute 'get'"))
  end.

(** The bit patterns of [0.0] and [-0.0]. *)
Definition float_is_zero (bits : Z) : bool :=
  (bits =? 0) || (bits =? 2 ^ 63).

(** Truthiness, [bool(v)]. *)
Definition truthy (v : json) : bool :=
  match v with
  | JNull => false
  | JBool b => b
  | JInt n => negb (n =? 0)
  | JFloat bits => negb (float_is_zero bits)
  | JStr s => negb (String.eqb s "")
  | JList l => match l with [] => false | _ => true end
  | JDict m => negb (bool_decide (size m = 0%nat))
  end.

(** [a or b]. *)
Definition py_or (a b : json) : json := if truthy a then a else b.

(** [a and b] where [a] is a [bool] and [b] is evaluated only when [a]
    holds: [isinstance(response, dict) and "result" in response]. *)
Definition py_and (a : bool) (b : result bool) : result bool :=
  if a then b else Return false.

(** ** The [requests] library, as far as the client sees it *)

(** A [requests.Response]: its [status_code], the message of the
    [HTTPError] that [raise_for_status] builds for it, and the outcome of
    its [json()] method. *)
Record response : Type := Response {
  status_code : Z;
  http_error_msg : string;
  json_outcome : result json
}.

(** [Response.raise_for_status()]: the library raises [HTTPError] for the
    client-error and server-error statuses, 400 to 599. *)
Definition raise_for_status (r : response) : result unit :=
  if (400 <=? status_code r) && (status_code r <? 600)
  then Raise (Exn HTTPError (http_error_msg r))
  else Return tt.

(** ** The client *)

(** The two attributes [__init__] sets. [token] is [None] when neither the
    argument nor the environment gives one. *)
Record LogseqAPIClient : Type := Client {
  api_url : string;
  token : option string
}.

(** [__init__]: [a or os.getenv(...)] on optional strings; [env] is the
    process environment. *)
Definition str_truthy (o : option string) : bool :=
  match o with
  | Some s => negb (String.eqb s "")
  | None => false
  end.

Definition init (env : gmap string string)
    (url tok : option string) : LogseqAPIClient :=
  {| api_url :=
       if str_truthy url then default "" url
       else default "http://localhost:12315" (env !! "LOGSEQ_API_URL");
     token := if str_truthy tok then tok else env !! "LOGSEQ_TOKEN" |}.

Definition _get_headers (self : LogseqAPIClient) : gmap string string :=
  let headers := {[ "Content-Type" := "application/json" ]} in
  if str_truthy (token self)
  then <[ "Authorization" := "Bearer " ++ default "" (token self) ]> headers
  else headers.

(** The sentinel [{"success": False, "error": msg}]. *)
Definition failure (msg : string) : json :=
  JDict {[ "success" := JBool false; "error" := JStr msg ]}.

Definition unauthorized_msg : string :=
  "401 Unauthorized: Please provide a valid token in LOGSEQ_API_TOKEN environment variable".

(** The JSON body [{"method": method, "args": args or []}]. *)
Definition request_data (method : string) (args : json) : json :=
  JDict {[ "method" := JStr method; "args" := py_or args (JList []) ]}.

(** ** What each operation does with the response of [call_api]

    Every operation of the client is [response = self.call_api(...)]
    followed by a few lines that look at [response].  Those lines are the
    functions below, one per operation, named after it. *)

Definition get_all_pages_result (response : json) : result json :=
  if isinstance_list response then Return response
  else if isinstance_dict response
       then py_get response "result" (JList [])
       else Return (JList []).

Definition get_page_result (response : json) : result json :=
  if is_None response then Return JNull
  else if isinstance_dict response then
    has_result ← py_in "result" response;
    if (has_result : bool) then py_get response "result" JNull
    else
      has_error ← py_in "error" response;
      if (has_error : bool) then Return JNull
      else Return response
  else Return response.

Definition get_page_blocks_result (response : json) : result json :=
  if isinstance_list response then Return response
  else if isinstance_dict response
       then py_get response "result" (JList [])
       else Return (JList []).

(** [search_blocks]: the [if isinstance(response, dict)] block returns in
    three of its four cases; [None] below is the case that falls through
    to the lines after it. *)
Definition search_blocks_dict (response : json) : result (option json) :=
  if isinstance_dict response then
    has_blocks ← py_in "blocks" response;
    if (has_blocks : bool)
    then v ← py_get response "blocks" (JList []); Return (Some v)
    else
      has_result ← py_in "result" response;
      if (has_result : bool)
      then v ← py_get response "result" (JList []); Return (Some v)
      else
        has_error ← py_in "error" response;
        if (has_error : bool) then Return (Some (JList []))
        else Return None
  else Return None.

Definition search_blocks_result (response : json) : result json :=
  if is_None response then Return (JList [])
  else
    returned ← search_blocks_dict response;
    match returned with
    | Some v => Return v
    | None =>
        if isinstance_list response then Return response
        else Return (JList [])
    end.

(** The three lines that end every mutation: [create_page],
    [create_block], [update_block], [delete_page], [remove_block],
    [insert_block] and [move_block] all have them verbatim. *)
Definition unwrap_result (response : json) : result json :=
  wrapped ← py_and (isinstance_dict response) (py_in "result" response);
  if (wrapped : bool) then py_get response "result" JNull
  else Return response.

Definition create_page_result := unwrap_result.
Definition create_block_result := unwrap_result.
Definition update_block_result := unwrap_result.
Definition delete_page_result := unwrap_result.
Definition remove_block_result := unwrap_result.
Definition insert_block_result := unwrap_result.
Definition move_block_result := unwrap_result.

Definition get_block_result (response : json) : result json :=
  if is_None response then Return JNull
  else if isinstance_dict response then
    has_error ← py_in "error" response;
    if (has_error : bool) then Return JNull
    else
      has_result ← py_in "result" response;
      if (has_result : bool) then py_get response "result" JNull
      else Return response
  else Return response.

Definition get_block_properties_result (response : json) : result json :=
  wrapped ← py_and (isinstance_dict response) (py_in "result" response);
  if (wrapped : bool) then py_get response "result" (JDict ∅)
  else Return (if isinstance_dict response then response else JDict ∅).

Definition get_page_linked_references_result (response : json)
    : result json :=
  if isinstance_list response then Return response
  else if isinstance_dict response
       then py_get response "result" (JList [])
       else Return (JList []).

(** ** The remote call each operation makes

    The method name and the [args] list handed to [call_api]. *)

Definition call : Type := (string * list json)%type.

(** [params = [...]; if properties: params.append(properties)]. *)
Definition with_properties (params : list json) (properties : json)
    : list json :=
  if truthy properties then params ++ [properties] else params.

Definition create_page_call (page_name : string) (properties : json) : call :=
  ("logseq.Editor.createPage",
   with_properties [JStr page_name] properties).

Definition create_block_call (page_name content : string)
    (properties : json) : call :=
  ("logseq.Editor.appendBlockInPage",
   with_properties [JStr page_name; JStr content] properties).

Definition update_block_call (block_id content : string)
    (properties : json) : call :=
  ("logseq.Editor.updateBlock",
   with_properties [JStr block_id; JStr content] properties).

Definition insert_block_call (parent_block_id content : string)
    (properties : json) (before : bool) : call :=
  let params :=
    with_properties [JStr parent_block_id; JStr content] properties in
  let method := "logseq.Editor.insertBlock" in
  let method := if before then "logseq.Editor.prependBlock" else method in
  (method, params).

Definition move_params (block_id target_block_id : string) (as_child : bool)
    : gmap string json :=
  {[ "srcUUID" := JStr block_id;
     "targetUUID" := JStr target_block_id;
     "isChild" := JBool as_child ]}.

Definition move_block_call (block_id target_block_id : string)
    (as_child : bool) : call :=
  let method := "logseq.Editor.moveBlock" in
  (method, [JDict (move_params block_id target_block_id as_child)]).

Section Client.

(** [requests.post(url, headers=headers, json=data)]: what the network
    and the remote endpoint answer to a request. *)
Variable post : string -> gmap string string -> json -> result response.

Variable self : LogseqAPIClient.

(** [call_api]. The [print] of the [except] branch writes to standard
    output only and is left out. *)
Definition call_api (method : string) (args : json) : result json :=
  let url := api_url self ++ "/api" in
  let headers := _get_headers self in
  let data := request_data method args in
  try_except_request
    (response ← post url headers data;
     if status_code response =? 401
     then Return (failure unauthorized_msg)
     else
       _ ← raise_for_status response;
       json_response ← json_outcome response;
       wrapped ← py_and (isinstance_dict json_response)
                        (py_in "result" json_response);
       if (wrapped : bool) then Return json_response
       else Return json_response)
    (fun e => Return (failure (exn_msg e))).

Definition get_current_graph : result json :=
  call_api "logseq.App.getCurrentGraph" JNull.

Definition get_all_pages : result json :=
  response ← call_api "logseq.Editor.getAllPages" JNull;
  get_all_pages_result response.

Definition get_page (page_name : string) : result json :=
  response ← call_api "logseq.Editor.getPage" (JList [JStr page_name]);
  get_page_result response.

Definition get_page_blocks (page_name : string) : result json :=
  response ← call_api "logseq.Editor.getPageBlocksTree"
                      (JList [JStr page_name]);
  get_page_blocks_result response.

Definition search_blocks (query : string) : result json :=
  response ← call_api "logseq.Editor.search" (JList [JStr query]);
  search_blocks_result response.

Definition create_page (page_name : string) (properties : json)
    : result json :=
  let '(method, params) :=
    create_page_call page_name properties in
  response ← call_api method (JList params);
  create_page_result response.

Definition create_block (page_name content : string) (properties : json)
    : result json :=
  let '(method, params) :=
    create_block_call page_name content properties in
  response ← call_api method (JList params);
  create_block_result response.

Definition update_block (block_id content : string) (properties : json)
    : result json :=
  let '(method, params) :=
    update_block_call block_id content properties in
  response ← call_api method (JList params);
  update_block_result response.

Definition get_block (block_id : string) : result json :=
  response ← call_api "logseq.Editor.getBlock" (JList [JStr block_id]);
  get_block_result response.

Definition get_block_properties (block_id : string) : result json :=
  response ← call_api "logseq.Editor.getBlockProperties"
                      (JList [JStr block_id]);
  get_block_properties_result response.

Definition get_page_linked_references (page_name : string)
    : result json :=
  response ← call_api "logseq.Editor.getPageLinkedReferences"
                      (JList [JStr page_name]);
  get_page_linked_references_result response.

Definition delete_page (page_name : string) : result json :=
  response ← call_api "logseq.Editor.deletePage" (JList [JStr page_name]);
  delete_page_result response.

Definition remove_block (block_id : string) : result json :=
  response ← call_api "logseq.Editor.removeBlock" (JList [JStr block_id]);
  remove_block_result response.

Definition insert_block (parent_block_id content : string)
    (properties : json) (before : bool) : result json :=
  let '(method, params) :=
    insert_block_call parent_block_id content properties before in
  response ← call_api method (JList params);
  insert_block_result response.

Definition move_block (block_id target_block_id : string)
    (as_child : bool) : result json :=
  let '(method, params) :=
    move_block_call block_id target_block_id as_child in
  response ← call_api method (JList params);
  move_block_result response.

End Client.

(** ** Families of operations

    The operations grouped by the result they declare, so that a
    statement can range over a whole family. *)

Inductive list_op : Type :=
| GetAllPages
| GetPageBlocks
| GetPageLinkedReferences.

Definition list_op_result (op : list_op) : json -> result json :=
  match op with
  | GetAllPages => get_all_pages_result
  | GetPageBlocks => get_page_blocks_result
  | GetPageLinkedReferences => get_page_linked_references_result
  end.

Inductive single_op : Type :=
| GetPage
| GetBlock.

Definition single_op_result (op : single_op) : json -> result json :=
  match op with
  | GetPage => get_page_result
  | GetBlock => get_block_result
  end.

Inductive mutation_op : Type :=
| CreatePage
| DeletePage
| CreateBlock
| UpdateBlock
| InsertBlock
| MoveBlock
| RemoveBlock.

Definition mutation_op_result (op : mutation_op) : json -> result json :=
  match op with
  | CreatePage => create_page_result
  | DeletePage => delete_page_result
  | CreateBlock => create_block_result
  | UpdateBlock => update_block_result
  | InsertBlock => insert_block_result
  | MoveBlock => move_block_result
  | RemoveBlock => remove_block_result
  end.

(** Every method of the client that is built on [call_api], with its
    arguments. *)
Inductive operation : Type :=
| GetCurrentGraphOp
| GetAllPagesOp
| GetPageOp (page_name : string)
| GetPageBlocksOp (page_name : string)
| SearchBlocksOp (query : string)
| CreatePageOp (page_name : string) (properties : json)
| CreateBlockOp (page_name content : string) (properties : json)
| UpdateBlockOp (block_id content : string) (properties : json)
| GetBlockOp (block_id : string)
| GetBlockPropertiesOp (block_id : string)
| GetPageLinkedReferencesOp (page_name : string)
| DeletePageOp (page_name : string)
| RemoveBlockOp (block_id : string)
| InsertBlockOp (parent_block_id content : string) (properties : json)
    (before : bool)
| MoveBlockOp (block_id target_block_id : string) (as_child : bool).

Definition run (post : string -> gmap string string -> json -> result response)
    (self : LogseqAPIClient) (op : operation) : result json :=
  match op with
  | GetCurrentGraphOp => get_current_graph post self
  | GetAllPagesOp => get_all_pages post self
  | GetPageOp page_name => get_page post self page_name
  | GetPageBlocksOp page_name => get_page_blocks post self page_name
  | SearchBlocksOp query => search_blocks post self query
  | CreatePageOp page_name properties =>
      create_page post self page_name properties
  | CreateBlockOp page_name content properties =>
      create_block post self page_name content properties
  | UpdateBlockOp block_id content properties =>
      update_block post self block_id content properties
  | GetBlockOp block_id => get_block post self block_id
  | GetBlockPropertiesOp block_id => get_block_properties post self block_id
  | GetPageLinkedReferencesOp page_name =>
      get_page_linked_references post self page_name
  | DeletePageOp page_name => delete_page post self page_name
  | RemoveBlockOp block_id => remove_block post self block_id
  | InsertBlockOp parent_block_id content properties before =>
      insert_block post self parent_block_id content properties before
  | MoveBlockOp block_id target_block_id as_child =>
      move_block post self block_id target_block_id as_child
  end.

(** The method and the [args] an operation hands to [call_api], and what
    it does with the response. *)
Definition op_request (op : operation) : string * json :=
  match op with
  | GetCurrentGraphOp => ("logseq.App.getCurrentGraph", JNull)
  | GetAllPagesOp => ("logseq.Editor.getAllPages", JNull)
  | GetPageOp page_name => ("logseq.Editor.getPage", JList [JStr page_name])
  | GetPageBlocksOp page_name =>
      ("logseq.Editor.getPageBlocksTree", JList [JStr page_name])
  | SearchBlocksOp query => ("logseq.Editor.search", JList [JStr query])
  | CreatePageOp page_name properties =>
      let c := create_page_call page_name properties in
      (fst c, JList (snd c))
  | CreateBlockOp page_name content properties =>
      let c := create_block_call page_name content properties in
      (fst c, JList (snd c))
  | UpdateBlockOp block_id content properties =>
      let c := update_block_call block_id content properties in
      (fst c, JList (snd c))
  | GetBlockOp block_id => ("logseq.Editor.getBlock", JList [JStr block_id])
  | GetBlockPropertiesOp block_id =>
      ("logseq.Editor.getBlockProperties", JList [JStr block_id])
  | GetPageLinkedReferencesOp page_name =>
      ("logseq.Editor.getPageLinkedReferences", JList [JStr page_name])
  | DeletePageOp page_name =>
      ("logseq.Editor.deletePage", JList [JStr page_name])
  | RemoveBlockOp block_id =>
      ("logseq.Editor.removeBlock", JList [JStr block_id])
  | InsertBlockOp parent_block_id content properties before =>
      let c := insert_block_call parent_block_id content properties before in
      (fst c, JList (snd c))
  | MoveBlockOp block_id target_block_id as_child =>
      let c := move_block_call block_id target_block_id as_child in
      (fst c, JList (snd c))
  end.

Definition op_result (op : operation) : json -> result json :=
  match op with
  | GetCurrentGraphOp => Return
  | GetAllPagesOp => get_all_pages_result
  | GetPageOp _ => get_page_result
  | GetPageBlocksOp _ => get_page_blocks_result
  | SearchBlocksOp _ => search_blocks_result
  | CreatePageOp _ _ => create_page_result
  | CreateBlockOp _ _ _ => create_block_result
  | UpdateBlockOp _ _ _ => update_block_result
  | GetBlockOp _ => get_block_result
  | GetBlockPropertiesOp _ => get_block_properties_result
  | GetPageLinkedReferencesOp _ => get_page_linked_references_result
  | DeletePageOp _ => delete_page_result
  | RemoveBlockOp _ => remove_block_result
  | InsertBlockOp _ _ _ _ => insert_block_result
  | MoveBlockOp _ _ _ => move_block_result
  end.

(** [raise_for_status] raises on this status. *)
Definition error_status (status : Z) : Prop := 400 <= status < 600.

(** ** Declared result shapes

    The return annotations of the client: [List[Dict]], [Optional[Dict]]
    and [Dict]. *)
Inductive shape : Type :=
| ListShape
| ObjectOrNone
| Object.

Definition has_shape (s : shape) (v : json) : bool :=
  match s with
  | ListShape => isinstance_list v
  | ObjectOrNone => is_None v || isinstance_dict v
  | Object => isinstance_dict v
  end.

Inductive facade_op : Type :=
| ListRead (op : list_op)
| Search
| SingleRead (op : single_op)
| Mutation (op : mutation_op)
| BlockProperties.

Definition facade_result (op : facade_op) : json -> result json :=
  match op with
  | ListRead op => list_op_result op
  | Search => search_blocks_result
  | SingleRead op => single_op_result op
  | Mutation op => mutation_op_result op
  | BlockProperties => get_block_properties_result
  end.

Definition declared_shape (op : facade_op) : shape :=
  match op with
  | ListRead _ | Search => ListShape
  | SingleRead _ => ObjectOrNone
  | Mutation _ | BlockProperties => Object
  end.

(** The value an operation takes out of a mapping and returns in its
    place, when it takes one: the value under [result]; for the search
    the value under [blocks] and, without that key, under [result]; for
    [get_block] nothing when the mapping has [error]. *)
Definition unwrapped (op : facade_op) (m : gmap string json) : option json :=
  match op with
  | Search =>
      match m !! "blocks" with
      | Some b => Some b
      | None => m !! "result"
      end
  | SingleRead GetBlock =>
      match m !! "error" with
      | Some _ => None
      | None => m !! "result"
      end
  | _ => m !! "result"
  end.

(** The responses an operation does not hand back out of shape: the
    reads of lists, the search and [get_block_properties] replace what is
    neither a list nor a mapping; [get_page], [get_block] and the
    mutations return it as it is. *)
Definition passes (op : facade_op) (response : json) : bool :=
  match op with
  | ListRead _ | Search | BlockProperties => true
  | SingleRead _ => is_None response || isinstance_dict response
  | Mutation _ => isinstance_dict response
  end.

Definition well_wrapped (op : facade_op) (response : json) : Prop :=
  passes op response = true /\
  forall m w,
    response = JDict m -> unwrapped op m = Some w ->
    has_shape (declared_shape op) w = true.

(** ** Sample transports

    [refused]: nothing listens at the endpoint. [answers status msg body]:
    the endpoint answers with that status and that JSON body.
    [answers_unreadable status e]: the endpoint answers with that status
    and a body on which [Response.json] raises [e]. *)
Definition refused
    : string -> gmap string string -> json -> result response :=
  fun _ _ _ => Raise (Exn ConnectionError "[Errno 111] Connection refused").

Definition answers (status : Z) (msg : string) (body : json)
    : string -> gmap string string -> json -> result response :=
  fun _ _ _ => Return (Response status msg (Return body)).

Definition answers_unreadable (status : Z) (e : exn)
    : string -> gmap string string -> json -> result response :=
  fun _ _ _ => Return (Response status "" (Raise e)).

(** What [json.loads] raises on an integer literal of more than 4300
    digits; [Response.json] turns only [JSONDecodeError] into an
    exception of [requests]. *)
Definition digit_limit_error : exn :=
  Exn ValueError
    "Exceeds the limit (4300 digits) for integer string conversion".

Definition local_client : LogseqAPIClient := init ∅ None None.

(** What every operation of a client returns once [call_api] has answered
    with the sentinel [failure msg]: the reads of lists and the search
    give the empty list, [get_page] and [get_block] give [None], and the
    others hand the sentinel on. *)
Definition failure_results
    (post : string -> gmap string string -> json -> result response)
    (self : LogseqAPIClient) (msg : string) : Prop :=
  get_current_graph post self = Return (failure msg) /\
  get_all_pages post self = Return (JList []) /\
  (forall page_name, get_page post self page_name = Return JNull) /\
  (forall page_name,
     get_page_blocks post self page_name = Return (JList [])) /\
  (forall query, search_blocks post self query = Return (JList [])) /\
  (forall page_name properties,
     create_page post self page_name properties
     = Return (failure msg)) /\
  (forall page_name content properties,
     create_block post self page_name content properties
     = Return (failure msg)) /\
  (forall block_id content properties,
     update_block post self block_id content properties
     = Return (failure msg)) /\
  (forall block_id, get_block post self block_id = Return JNull) /\
  (forall block_id,
     get_block_properties post self block_id = Return (failure msg)) /\
  (forall page_name,
     get_page_linked_references post self page_name = Return (JList [])) /\
  (forall page_name,
     delete_page post self page_name = Return (failure msg)) /\
  (forall block_id,
     remove_block post self block_id = Return (failure msg)) /\
  (forall parent_block_id content properties before,
     insert_block post self parent_block_id content properties before
     = Return (failure msg)) /\
  (forall block_id target_block_id as_child,
     move_block post self block_id target_block_id as_child
     = Return (failure msg)).

(** The endpoint answers every request with status 401. *)
Definition unauthorized
    : string -> gmap string string -> json -> result response :=
  fun _ _ _ =>
    Return (Response 401 "401 Client Error: Unauthorized"
              (Return (JDict {[ "error" := JStr "unauthorized" ]}))).

(** * Properties *)

(** ** The Python operations on a dict *)

Lemma py_in_dict (k : string) (m : gmap string json) :
  py_in k (JDict m) = Return (bool_decide (is_Some (m !! k))).
Proof. reflexivity. Qed.

Lemma py_in_dict_Some (k : string) (m : gmap string json) (v : json) :
  m !! k = Some v -> py_in k (JDict m) = Return true.
Proof.
  intros Hk. rewrite py_in_dict, bool_decide_eq_true_2; eauto.
Qed.

Lemma py_in_dict_None (k : string) (m : gmap string json) :
  m !! k = None -> py_in k (JDict m) = Return false.
Proof.
  intros Hk. rewrite py_in_dict, bool_decide_eq_false_2; [done|].
  rewrite Hk. by intros [? ?].
Qed.

Lemma py_get_dict_Some (k : string) (m : gmap string json) (d v : json) :
  m !! k = Some v -> py_get (JDict m) k d = Return v.
Proof. intros Hk. simpl. by rewrite Hk. Qed.

Lemma py_get_dict_None (k : string) (m : gmap string json) (d : json) :
  m !! k = None -> py_get (JDict m) k d = Return d.
Proof. intros Hk. simpl. by rewrite Hk. Qed.

Lemma bind_Return {A B : Type} (a : A) (k : A -> result B) :
  (Return a ≫= k) = k a.
Proof. reflexivity. Qed.

(** Rewrites a lookup that is known into the membership test and the
    [get] that depend on it. *)
Ltac dict_step :=
  repeat match goal with
  | H : ?m !! ?k = Some _ |- context [py_in ?k (JDict ?m)] =>
      rewrite (py_in_dict_Some k m _ H)
  | H : ?m !! ?k = None |- context [py_in ?k (JDict ?m)] =>
      rewrite (py_in_dict_None k m H)
  | H : ?m !! ?k = Some _ |- context [py_get (JDict ?m) ?k ?d] =>
      rewrite (py_get_dict_Some k m d _ H)
  | H : ?m !! ?k = None |- context [py_get (JDict ?m) ?k ?d] =>
      rewrite (py_get_dict_None k m d H)
  | |- context [Return ?a ≫= ?k] => rewrite (bind_Return a k)
  end.

(** ** List-shaped reads *)

Lemma list_op_result_eq (op : list_op) (response : json) :
  list_op_result op response = get_all_pages_result response.
Proof. by destruct op. Qed.

Lemma list_op_result_wrapped (op : list_op) (m : gmap string json) (v : json) :
  m !! "result" = Some v -> list_op_result op (JDict m) = Return v.
Proof.
  intros Hr. rewrite list_op_result_eq. unfold get_all_pages_result.
  simpl isinstance_list. simpl isinstance_dict. cbv iota. by dict_step.
Qed.

(** C1 (as amended): a list-shaped read returns a list response
    unchanged; from a mapping it returns the value under [result] when
    that value is a list and the empty list when the key is absent (so
    also for a mapping that only has [error]); every response that is
    neither a list nor a mapping, null included, gives the empty list.
    In all these cases the result is a list. *)
Theorem list_op_result_spec (op : list_op) :
  (forall l, list_op_result op (JList l) = Return (JList l)) /\
  (forall m l, m !! "result" = Some (JList l) ->
     list_op_result op (JDict m) = Return (JList l)) /\
  (forall m, m !! "result" = None ->
     list_op_result op (JDict m) = Return (JList [])) /\
  (forall response,
     isinstance_list response = false ->
     isinstance_dict response = false ->
     list_op_result op response = Return (JList [])) /\
  (forall response v,
     (forall m w, response = JDict m -> m !! "result" = Some w ->
        isinstance_list w = true) ->
     list_op_result op response = Return v -> isinstance_list v = true).
Proof.
  repeat split.
  - intros l. by rewrite list_op_result_eq.
  - intros m l Hr. by apply list_op_result_wrapped.
  - intros m Hr. rewrite list_op_result_eq. unfold get_all_pages_result.
    simpl isinstance_list. simpl isinstance_dict. cbv iota. by dict_step.
  - intros response Hl Hd. rewrite list_op_result_eq.
    unfold get_all_pages_result. by rewrite Hl, Hd.
  - intros response v Hw. rewrite list_op_result_eq.
    destruct response as [| | | | |l|m]; try (by intros [= <-]).
    unfold get_all_pages_result. simpl isinstance_list.
    simpl isinstance_dict. cbv iota.
    destruct (m !! "result") as [w|] eqn:Hr; dict_step; intros [= <-].
    + by eapply Hw.
    + done.
Qed.

(** At a mapping with [result] and at one with only [error]. *)
Lemma list_op_result_spec_witness :
  list_op_result GetPageBlocks
    (JDict {[ "result" := JList [JInt 7] ]}) = Return (JList [JInt 7]) /\
  list_op_result GetPageBlocks
    (JDict {[ "error" := JStr "no such page" ]}) = Return (JList []) /\
  list_op_result GetPageBlocks JNull = Return (JList []).
Proof.
  destruct (list_op_result_spec GetPageBlocks) as (_ & Hw & Ha & Ho & _).
  split; [|split].
  - apply Hw. reflexivity.
  - apply Ha. reflexivity.
  - apply Ho; reflexivity.
Defined.

(** C1 (as stated) fails where [result] holds something that is not a
    list: the value comes back as it is, here [None]. *)
Lemma list_op_result_not_list :
  get_all_pages_result (JDict {[ "result" := JNull ]}) = Return JNull /\
  get_all_pages_result (JDict {[ "result" := JNull ]}) <> Return (JList []) /\
  isinstance_list JNull = false.
Proof. by vm_compute. Qed.

(** ** Single-object reads *)

(** [get_block] looks for [error] first: null and every mapping with
    [error] give [None], a mapping with [result] and no [error] gives the
    value under [result], any other mapping comes back unchanged. *)
Lemma get_block_result_spec :
  get_block_result JNull = Return JNull /\
  (forall m e, m !! "error" = Some e ->
     get_block_result (JDict m) = Return JNull) /\
  (forall m v, m !! "error" = None -> m !! "result" = Some v ->
     get_block_result (JDict m) = Return v) /\
  (forall m, m !! "error" = None -> m !! "result" = None ->
     get_block_result (JDict m) = Return (JDict m)).
Proof.
  split; [done|]. unfold get_block_result. simpl is_None.
  simpl isinstance_dict. cbv iota.
  repeat split; intros; by dict_step.
Qed.

(** [get_page] looks for [result] first: every mapping with [result]
    gives the value under it, a mapping with [error] and no [result]
    gives [None], any other mapping comes back unchanged. *)
Lemma get_page_result_spec :
  get_page_result JNull = Return JNull /\
  (forall m v, m !! "result" = Some v ->
     get_page_result (JDict m) = Return v) /\
  (forall m e, m !! "result" = None -> m !! "error" = Some e ->
     get_page_result (JDict m) = Return JNull) /\
  (forall m, m !! "result" = None -> m !! "error" = None ->
     get_page_result (JDict m) = Return (JDict m)).
Proof.
  split; [done|]. unfold get_page_result. simpl is_None.
  simpl isinstance_dict. cbv iota.
  repeat split; intros; by dict_step.
Qed.

(** C2: on a response that has both [error] and [result], [get_page]
    returns the value under [result] where [get_block] returns [None]. *)
Theorem get_page_error_with_result :
  get_page_result
    (JDict {[ "error" := JStr "page not found";
              "result" := JDict {[ "name" := JStr "p" ]} ]})
  = Return (JDict {[ "name" := JStr "p" ]}) /\
  get_block_result
    (JDict {[ "error" := JStr "page not found";
              "result" := JDict {[ "name" := JStr "p" ]} ]})
  = Return JNull.
Proof. split; by vm_compute. Qed.

(** ** Search *)

(** C3 (as amended): [search_blocks] returns the value under [blocks]
    whenever that key is there, also next to [result]; the value under
    [result] when there is no [blocks]; the empty list for null and for a
    mapping with [error] that has neither [blocks] nor [result]; a list
    response unchanged. *)
Theorem search_blocks_result_spec :
  (forall m b, m !! "blocks" = Some b ->
     search_blocks_result (JDict m) = Return b) /\
  (forall m v, m !! "blocks" = None -> m !! "result" = Some v ->
     search_blocks_result (JDict m) = Return v) /\
  search_blocks_result JNull = Return (JList []) /\
  (forall m e, m !! "blocks" = None -> m !! "result" = None ->
     m !! "error" = Some e ->
     search_blocks_result (JDict m) = Return (JList [])) /\
  (forall l, search_blocks_result (JList l) = Return (JList l)).
Proof.
  unfold search_blocks_result, search_blocks_dict. simpl is_None.
  simpl isinstance_dict. cbv iota.
  repeat split; intros; by dict_step.
Qed.

(** The scenario of the specification, [{"blocks": [{"id": 1}]}], next
    to a [result] that loses, and an error mapping. *)
Lemma search_blocks_result_spec_witness :
  search_blocks_result
    (JDict {[ "blocks" := JList [JDict {[ "id" := JInt 1 ]}];
              "result" := JList [] ]})
  = Return (JList [JDict {[ "id" := JInt 1 ]}]) /\
  search_blocks_result (JDict {[ "result" := JList [JInt 2] ]})
  = Return (JList [JInt 2]) /\
  search_blocks_result (JDict {[ "error" := JStr "bad query" ]})
  = Return (JList []).
Proof.
  destruct search_blocks_result_spec as (Hb & Hr & _ & He & _).
  split; [|split].
  - apply Hb. reflexivity.
  - apply Hr; reflexivity.
  - apply (He _ (JStr "bad query")); reflexivity.
Defined.

(** C3 (as stated) fails for a mapping that has [error] next to
    [result]: the value under [result] comes back, not the empty list. *)
Lemma search_blocks_error_with_result :
  search_blocks_result
    (JDict {[ "error" := JStr "partial"; "result" := JList [JInt 1] ]})
  = Return (JList [JInt 1]) /\
  search_blocks_result
    (JDict {[ "error" := JStr "partial"; "result" := JList [JInt 1] ]})
  <> Return (JList []).
Proof. by vm_compute. Qed.

(** ** Mutations *)

Lemma mutation_op_result_eq (op : mutation_op) (response : json) :
  mutation_op_result op response = unwrap_result response.
Proof. by destruct op. Qed.

Lemma failure_no_result (msg : string) :
  forall m, failure msg = JDict m -> m !! "result" = None.
Proof. intros m [= <-]. by vm_compute. Qed.

(** C4: a mutation returns the value under [result] when the response
    is a mapping that has the key, and the response itself otherwise: a
    mapping without [result], the failure sentinel among them, and every
    response that is not a mapping. *)
Theorem mutation_op_result_spec (op : mutation_op) :
  (forall m v, m !! "result" = Some v ->
     mutation_op_result op (JDict m) = Return v) /\
  (forall m, m !! "result" = None ->
     mutation_op_result op (JDict m) = Return (JDict m)) /\
  (forall response, isinstance_dict response = false ->
     mutation_op_result op response = Return response) /\
  (forall msg, mutation_op_result op (failure msg) = Return (failure msg)).
Proof.
  split; [|split; [|split]]; intros; rewrite mutation_op_result_eq;
    unfold unwrap_result.
  - simpl isinstance_dict. unfold py_and. by dict_step.
  - simpl isinstance_dict. unfold py_and. by dict_step.
  - match goal with H : isinstance_dict _ = false |- _ => by rewrite H end.
  - pose proof (failure_no_result msg _ eq_refl) as Hn.
    unfold failure in *. simpl isinstance_dict. unfold py_and. by dict_step.
Qed.

Lemma mutation_op_result_spec_witness :
  mutation_op_result UpdateBlock
    (JDict {[ "result" := JDict {[ "uuid" := JStr "b1" ]} ]})
  = Return (JDict {[ "uuid" := JStr "b1" ]}) /\
  mutation_op_result RemoveBlock (JDict {[ "ok" := JBool true ]})
  = Return (JDict {[ "ok" := JBool true ]}) /\
  mutation_op_result CreatePage JNull = Return JNull.
Proof.
  split; [|split].
  - destruct (mutation_op_result_spec UpdateBlock) as (Hw & _).
    apply Hw. reflexivity.
  - destruct (mutation_op_result_spec RemoveBlock) as (_ & Hn & _).
    apply Hn. reflexivity.
  - destruct (mutation_op_result_spec CreatePage) as (_ & _ & Ho & _).
    apply Ho. reflexivity.
Defined.

(** ** The calls *)

(** C5: [insert_block] calls [logseq.Editor.prependBlock] when [before]
    is set and [logseq.Editor.insertBlock] when it is not, two different
    method names, and hands both the same argument list: the two request
    bodies carry the same [args] and differ in [method] only, and the two
    runs of [insert_block] are [call_api] on these two methods with that
    one list. *)
Theorem insert_block_call_before
    (parent_block_id content : string) (properties : json) :
  let before_call :=
    insert_block_call parent_block_id content properties true in
  let after_call :=
    insert_block_call parent_block_id content properties false in
  fst before_call = "logseq.Editor.prependBlock" /\
  fst after_call = "logseq.Editor.insertBlock" /\
  fst before_call <> fst after_call /\
  snd before_call = snd after_call /\
  exists args : json,
    request_data (fst before_call) (JList (snd before_call))
    = JDict {[ "method" := JStr "logseq.Editor.prependBlock";
               "args" := args ]} /\
    request_data (fst after_call) (JList (snd after_call))
    = JDict {[ "method" := JStr "logseq.Editor.insertBlock";
               "args" := args ]} /\
    forall post self,
      insert_block post self parent_block_id content properties true
      = call_api post self "logseq.Editor.prependBlock"
          (JList (snd after_call)) ≫= insert_block_result /\
      insert_block post self parent_block_id content properties false
      = call_api post self "logseq.Editor.insertBlock"
          (JList (snd after_call)) ≫= insert_block_result.
Proof.
  intros before_call after_call.
  split; [done|]. split; [done|]. split; [done|]. split; [done|].
  exists (py_or (JList (snd after_call)) (JList [])). by repeat split.
Qed.

Lemma move_params_dom (block_id target_block_id : string) (as_child : bool) :
  dom (move_params block_id target_block_id as_child)
  = ({[ "srcUUID"; "targetUUID"; "isChild" ]} : gset string).
Proof.
  unfold move_params. rewrite !dom_insert_L, dom_singleton_L. set_solver.
Qed.

(** C6: [move_block] calls [logseq.Editor.moveBlock] with an argument
    list of one element, a record whose keys are exactly [srcUUID],
    [targetUUID] and [isChild], holding the source id, the target id and
    the child flag; no element of the list is anything but that record,
    and the list is what the request body carries. *)
Theorem move_block_call_spec
    (block_id target_block_id : string) (as_child : bool) :
  let c := move_block_call block_id target_block_id as_child in
  fst c = "logseq.Editor.moveBlock" /\
  exists record : gmap string json,
    snd c = [JDict record] /\
    dom record = ({[ "srcUUID"; "targetUUID"; "isChild" ]} : gset string) /\
    record !! "srcUUID" = Some (JStr block_id) /\
    record !! "targetUUID" = Some (JStr target_block_id) /\
    record !! "isChild" = Some (JBool as_child) /\
    List.length (snd c) = 1%nat /\
    Forall (fun x => isinstance_dict x = true) (snd c) /\
    request_data (fst c) (JList (snd c))
    = JDict {[ "method" := JStr "logseq.Editor.moveBlock";
               "args" := JList [JDict record] ]} /\
    forall post self,
      move_block post self block_id target_block_id as_child
      = call_api post self "logseq.Editor.moveBlock" (JList [JDict record])
          ≫= move_block_result.
Proof.
  split; [done|].
  exists (move_params block_id target_block_id as_child).
  split; [done|]. split; [apply move_params_dom|].
  repeat split; try done.
  by constructor.
Qed.

Lemma truthy_dict (m : gmap string json) :
  truthy (JDict m) = negb (bool_decide (m = ∅)).
Proof.
  simpl. f_equal. apply bool_decide_ext, map_size_empty_iff.
Qed.

Lemma with_properties_empty (params : list json) :
  with_properties params (JDict ∅) = params /\
  with_properties params JNull = params.
Proof. done. Qed.

Lemma with_properties_nonempty (params : list json) (m : gmap string json) :
  m <> ∅ -> with_properties params (JDict m) = (params ++ [JDict m])%list.
Proof.
  intros Hm. unfold with_properties.
  by rewrite truthy_dict, bool_decide_eq_false_2.
Qed.

(** C9: with the empty mapping for [properties], [create_page],
    [create_block], [update_block] and [insert_block] make the call they
    make with no [properties] at all, whose arguments are the positional
    ones alone; a mapping is appended, as last argument, exactly when it
    is not empty.  So the whole operation, request and result, is the
    same for the empty mapping and for none. *)
Theorem empty_properties_call
    (page_name block_id content : string) (before : bool) :
  (create_page_call page_name (JDict ∅) = create_page_call page_name JNull /\
   snd (create_page_call page_name JNull) = [JStr page_name]) /\
  (create_block_call page_name content (JDict ∅)
   = create_block_call page_name content JNull /\
   snd (create_block_call page_name content JNull)
   = [JStr page_name; JStr content]) /\
  (update_block_call block_id content (JDict ∅)
   = update_block_call block_id content JNull /\
   snd (update_block_call block_id content JNull)
   = [JStr block_id; JStr content]) /\
  (insert_block_call block_id content (JDict ∅) before
   = insert_block_call block_id content JNull before /\
   snd (insert_block_call block_id content JNull before)
   = [JStr block_id; JStr content]) /\
  (forall m : gmap string json, m <> ∅ ->
     snd (create_page_call page_name (JDict m))
     = [JStr page_name; JDict m] /\
     snd (create_block_call page_name content (JDict m))
     = [JStr page_name; JStr content; JDict m] /\
     snd (update_block_call block_id content (JDict m))
     = [JStr block_id; JStr content; JDict m] /\
     snd (insert_block_call block_id content (JDict m) before)
     = [JStr block_id; JStr content; JDict m]) /\
  (forall post self,
     create_page post self page_name (JDict ∅)
     = create_page post self page_name JNull /\
     create_block post self page_name content (JDict ∅)
     = create_block post self page_name content JNull /\
     update_block post self block_id content (JDict ∅)
     = update_block post self block_id content JNull /\
     insert_block post self block_id content (JDict ∅) before
     = insert_block post self block_id content JNull before).
Proof.
  repeat split; try done;
    simpl; by rewrite with_properties_nonempty.
Qed.

Lemma empty_properties_call_witness :
  snd (create_page_call "Inbox" (JDict {[ "type" := JStr "note" ]}))
  = [JStr "Inbox"; JDict {[ "type" := JStr "note" ]}] /\
  create_page_call "Inbox" (JDict ∅) = create_page_call "Inbox" JNull.
Proof.
  destruct (empty_properties_call "Inbox" "b1" "text" false)
    as ((He & _) & _ & _ & _ & Hm & _).
  split; [|exact He].
  apply (Hm {[ "type" := JStr "note" ]}).
  intros Hempty. by apply (f_equal (fun m => m !! "type")) in Hempty.
Defined.

(** ** Block properties *)

(** C10: [get_block_properties] returns the value under [result] when
    the response is a mapping that has the key, a mapping without
    [result] unchanged, the failure sentinel among them, and the empty
    mapping for every response that is not a mapping. *)
Theorem get_block_properties_result_spec :
  (forall m v, m !! "result" = Some v ->
     get_block_properties_result (JDict m) = Return v) /\
  (forall m, m !! "result" = None ->
     get_block_properties_result (JDict m) = Return (JDict m)) /\
  (forall msg,
     get_block_properties_result (failure msg) = Return (failure msg)) /\
  (forall response, isinstance_dict response = false ->
     get_block_properties_result response = Return (JDict ∅)).
Proof.
  unfold get_block_properties_result.
  split; [|split; [|split]].
  - intros m v Hr. simpl isinstance_dict. unfold py_and. by dict_step.
  - intros m Hr. simpl isinstance_dict. unfold py_and. by dict_step.
  - intros msg. pose proof (failure_no_result msg _ eq_refl) as Hn.
    unfold failure in *. simpl isinstance_dict. unfold py_and.
    by dict_step.
  - intros response Hd. by rewrite Hd.
Qed.

Lemma get_block_properties_result_spec_witness :
  get_block_properties_result
    (JDict {[ "result" := JDict {[ "tag" := JStr "x" ]} ]})
  = Return (JDict {[ "tag" := JStr "x" ]}) /\
  get_block_properties_result (JDict {[ "error" := JStr "no block" ]})
  = Return (JDict {[ "error" := JStr "no block" ]}) /\
  get_block_properties_result (JList []) = Return (JDict ∅).
Proof.
  destruct get_block_properties_result_spec as (Hw & Hn & _ & Ho).
  split; [|split].
  - apply Hw. reflexivity.
  - apply Hn. reflexivity.
  - apply Ho. reflexivity.
Defined.

(** ** Totality and result shapes *)

Ltac by_lookups m :=
  destruct (m !! "blocks") eqn:?, (m !! "result") eqn:?,
    (m !! "error") eqn:?; dict_step.

Lemma facade_result_returns (op : facade_op) (response : json) :
  returns (facade_result op response).
Proof.
  destruct op as [[]| |[]|[]| ]; simpl;
    unfold get_all_pages_result, get_page_blocks_result,
      get_page_linked_references_result, search_blocks_result,
      search_blocks_dict, get_page_result, get_block_result,
      create_page_result, delete_page_result, create_block_result,
      update_block_result, insert_block_result, move_block_result,
      remove_block_result, unwrap_result, get_block_properties_result,
      py_and;
    (destruct response as [| | | | | l | m];
     [by eexists .. | simpl is_None; simpl isinstance_list;
                      simpl isinstance_dict; cbv iota;
                      by_lookups m; by eexists]).
Qed.

Ltac unfold_results :=
  unfold get_all_pages_result, get_page_blocks_result,
    get_page_linked_references_result, search_blocks_result,
    search_blocks_dict, get_page_result, get_block_result,
    create_page_result, delete_page_result, create_block_result,
    update_block_result, insert_block_result, move_block_result,
    remove_block_result, unwrap_result, get_block_properties_result,
    py_and.

Lemma facade_result_shape_bare (op : facade_op) (response v : json) :
  isinstance_dict response = false ->
  facade_result op response = Return v ->
  has_shape (declared_shape op) v = passes op response.
Proof.
  intros Hd.
  destruct op as [[]| |[]|[]| ]; simpl; unfold_results;
    destruct response; try done; by intros [= <-].
Qed.

Lemma facade_result_shape_dict (op : facade_op) (m : gmap string json)
    (v : json) :
  facade_result op (JDict m) = Return v ->
  match unwrapped op m with
  | Some w => v = w
  | None => has_shape (declared_shape op) v = true
  end.
Proof.
  destruct op as [[]| |[]|[]| ]; simpl; unfold_results;
    simpl is_None; simpl isinstance_list; simpl isinstance_dict; cbv iota;
    by_lookups m; by intros [= <-].
Qed.

Lemma passes_dict (op : facade_op) (m : gmap string json) :
  passes op (JDict m) = true.
Proof. by destruct op. Qed.

Lemma facade_result_shape (op : facade_op) (response v : json) :
  facade_result op response = Return v ->
  has_shape (declared_shape op) v = true <-> well_wrapped op response.
Proof.
  intros Hv. unfold well_wrapped.
  destruct (isinstance_dict response) eqn:Hd.
  - destruct response as [| | | | | l | m]; try done.
    apply facade_result_shape_dict in Hv. rewrite passes_dict.
    destruct (unwrapped op m) as [w|] eqn:Hu.
    + subst v. split.
      * intros Hs. split; [done|]. intros m' w' [= <-] Hw. congruence.
      * intros [_ Hw]. by apply (Hw m).
    + split; [|done]. intros _. split; [done|].
      intros m' w' [= <-] Hw. congruence.
  - rewrite (facade_result_shape_bare op response v Hd Hv).
    split.
    + intros Hp. split; [done|]. intros m w ->. done.
    + by intros [Hp _].
Qed.




(** ** The transport *)

Lemma run_eq post self (op : operation) :
  run post self op
  = call_api post self (fst (op_request op)) (snd (op_request op))
      ≫= op_result op.
Proof.
  destruct op; try reflexivity.
  simpl. unfold get_current_graph. by destruct (call_api _ _ _ _).
Qed.

Lemma op_result_returns (op : operation) (response : json) :
  returns (op_result op response).
Proof.
  destruct op; simpl; try (by eexists).
  - apply (facade_result_returns (ListRead GetAllPages)).
  - apply (facade_result_returns (SingleRead GetPage)).
  - apply (facade_result_returns (ListRead GetPageBlocks)).
  - apply (facade_result_returns Search).
  - apply (facade_result_returns (Mutation CreatePage)).
  - apply (facade_result_returns (Mutation CreateBlock)).
  - apply (facade_result_returns (Mutation UpdateBlock)).
  - apply (facade_result_returns (SingleRead GetBlock)).
  - apply (facade_result_returns BlockProperties).
  - apply (facade_result_returns (ListRead GetPageLinkedReferences)).
  - apply (facade_result_returns (Mutation DeletePage)).
  - apply (facade_result_returns (Mutation RemoveBlock)).
  - apply (facade_result_returns (Mutation InsertBlock)).
  - apply (facade_result_returns (Mutation MoveBlock)).
Qed.

Lemma op_result_failure (op : operation) (msg : string) :
  op_result op (failure msg) = Return (JList []) \/
  op_result op (failure msg) = Return JNull \/
  op_result op (failure msg) = Return (failure msg).
Proof.
  destruct op; vm_compute; auto.
Qed.

Section Transport.

Variable post : string -> gmap string string -> json -> result response.
Variable self : LogseqAPIClient.

Lemma py_and_result (v : json) :
  exists b, py_and (isinstance_dict v) (py_in "result" v) = Return b.
Proof. destruct v; by eexists. Qed.

Lemma call_api_post_raises method args e :
  post (api_url self ++ "/api") (_get_headers self)
       (request_data method args) = Raise e ->
  is_request_exception (exn_cls e) = true ->
  call_api post self method args = Return (failure (exn_msg e)).
Proof.
  intros Hp He. unfold call_api. rewrite Hp. simpl. by rewrite He.
Qed.

Lemma call_api_unauthorized method args r :
  post (api_url self ++ "/api") (_get_headers self)
       (request_data method args) = Return r ->
  status_code r = 401 ->
  call_api post self method args = Return (failure unauthorized_msg).
Proof.
  intros Hp Hs. unfold call_api. rewrite Hp. simpl. by rewrite Hs.
Qed.

Lemma call_api_error_status method args r :
  post (api_url self ++ "/api") (_get_headers self)
       (request_data method args) = Return r ->
  status_code r <> 401 -> error_status (status_code r) ->
  call_api post self method args = Return (failure (http_error_msg r)).
Proof.
  intros Hp Hs [Hlo Hhi]. unfold call_api. rewrite Hp. simpl.
  destruct (Z.eqb_spec (status_code r) 401); [done|].
  unfold raise_for_status.
  destruct (Z.leb_spec 400 (status_code r)); [|lia].
  destruct (Z.ltb_spec (status_code r) 600); [|lia].
  done.
Qed.

Lemma call_api_json_raises method args r e :
  post (api_url self ++ "/api") (_get_headers self)
       (request_data method args) = Return r ->
  ~ error_status (status_code r) ->
  json_outcome r = Raise e ->
  is_request_exception (exn_cls e) = true ->
  call_api post self method args = Return (failure (exn_msg e)).
Proof.
  intros Hp Hs Hj He. unfold call_api. rewrite Hp. simpl.
  destruct (Z.eqb_spec (status_code r) 401) as [E|_].
  { exfalso. apply Hs. unfold error_status. lia. }
  unfold raise_for_status, error_status in *.
  destruct (Z.leb_spec 400 (status_code r));
    destruct (Z.ltb_spec (status_code r) 600);
    try (exfalso; lia); simpl; rewrite Hj; simpl; by rewrite He.
Qed.

Lemma call_api_success method args r v :
  post (api_url self ++ "/api") (_get_headers self)
       (request_data method args) = Return r ->
  ~ error_status (status_code r) ->
  json_outcome r = Return v ->
  call_api post self method args = Return v.
Proof.
  intros Hp Hs Hj. unfold call_api. rewrite Hp. simpl.
  destruct (Z.eqb_spec (status_code r) 401) as [E|_].
  { exfalso. apply Hs. unfold error_status. lia. }
  unfold raise_for_status, error_status in *.
  destruct (py_and_result v) as [b Hb].
  destruct (Z.leb_spec 400 (status_code r));
    destruct (Z.ltb_spec (status_code r) 600);
    try (exfalso; lia); simpl; rewrite Hj; simpl; rewrite Hb; simpl;
    by destruct b.
Qed.

Lemma call_api_post_escapes method args e :
  post (api_url self ++ "/api") (_get_headers self)
       (request_data method args) = Raise e ->
  is_request_exception (exn_cls e) = false ->
  call_api post self method args = Raise e.
Proof.
  intros Hp He. unfold call_api. rewrite Hp. simpl. by rewrite He.
Qed.

Lemma call_api_json_escapes method args r e :
  post (api_url self ++ "/api") (_get_headers self)
       (request_data method args) = Return r ->
  ~ error_status (status_code r) ->
  json_outcome r = Raise e ->
  is_request_exception (exn_cls e) = false ->
  call_api post self method args = Raise e.
Proof.
  intros Hp Hs Hj He. unfold call_api. rewrite Hp. simpl.
  destruct (Z.eqb_spec (status_code r) 401) as [E|_].
  { exfalso. apply Hs. unfold error_status. lia. }
  unfold raise_for_status, error_status in *.
  destruct (Z.leb_spec 400 (status_code r));
    destruct (Z.ltb_spec (status_code r) 600);
    try (exfalso; lia); simpl; rewrite Hj; simpl; by rewrite He.
Qed.

Lemma call_api_raise_class method args e :
  call_api post self method args = Raise e ->
  is_request_exception (exn_cls e) = false.
Proof.
  destruct (post (api_url self ++ "/api") (_get_headers self)
              (request_data method args)) as [r|e0] eqn:Hp.
  - destruct (Z.eq_dec (status_code r) 401) as [E|E].
    { by rewrite (call_api_unauthorized method args r Hp E). }
    destruct (decide (error_status (status_code r))) as [Hs|Hs].
    { by rewrite (call_api_error_status method args r Hp E Hs). }
    destruct (json_outcome r) as [v|e1] eqn:Hj.
    { by rewrite (call_api_success method args r v Hp Hs Hj). }
    destruct (is_request_exception (exn_cls e1)) eqn:He1.
    + by rewrite (call_api_json_raises method args r e1 Hp Hs Hj He1).
    + rewrite (call_api_json_escapes method args r e1 Hp Hs Hj He1).
      by intros [= <-].
  - destruct (is_request_exception (exn_cls e0)) eqn:He0.
    + by rewrite (call_api_post_raises method args e0 Hp He0).
    + rewrite (call_api_post_escapes method args e0 Hp He0).
      by intros [= <-].
Qed.

End Transport.

(** C7 (as amended): [call_api] lets no [RequestException] cross its
    boundary.  It returns the 401 sentinel on status 401; the sentinel
    with the message of the exception when [requests.post] raises a
    [RequestException] (connection refused, timeout), when the status is
    another error status, 400 to 599, or when [response.json()] raises
    a [RequestException] (the body is not JSON); and the parsed body, as
    it is, when the status is no error status and the body parses.  An
    exception of another class raised by [requests.post] or by
    [response.json()] is not caught and comes out of [call_api]; nothing
    else does.  Every operation built on [call_api] returns a value
    whenever [call_api] does, and when the request fails with a
    [RequestException] that value is the empty list, [None] or the
    sentinel itself. *)
Theorem call_api_spec
    (post : string -> gmap string string -> json -> result response)
    (self : LogseqAPIClient) (method : string) (args : json) :
  let sent :=
    post (api_url self ++ "/api") (_get_headers self)
         (request_data method args) in
  (forall r, sent = Return r -> status_code r = 401 ->
     call_api post self method args = Return (failure unauthorized_msg)) /\
  (forall e, sent = Raise e ->
     is_request_exception (exn_cls e) = true ->
     call_api post self method args = Return (failure (exn_msg e))) /\
  (forall r, sent = Return r ->
     status_code r <> 401 -> error_status (status_code r) ->
     call_api post self method args
     = Return (failure (http_error_msg r))) /\
  (forall r e, sent = Return r ->
     ~ error_status (status_code r) -> json_outcome r = Raise e ->
     is_request_exception (exn_cls e) = true ->
     call_api post self method args = Return (failure (exn_msg e))) /\
  (forall r v, sent = Return r ->
     ~ error_status (status_code r) -> json_outcome r = Return v ->
     call_api post self method args = Return v) /\
  (forall e, sent = Raise e ->
     is_request_exception (exn_cls e) = false ->
     call_api post self method args = Raise e) /\
  (forall r e, sent = Return r ->
     ~ error_status (status_code r) -> json_outcome r = Raise e ->
     is_request_exception (exn_cls e) = false ->
     call_api post self method args = Raise e) /\
  (forall e, call_api post self method args = Raise e ->
     is_request_exception (exn_cls e) = false) /\
  (forall op v,
     call_api post self (fst (op_request op)) (snd (op_request op))
     = Return v ->
     returns (run post self op)) /\
  (forall op e,
     post (api_url self ++ "/api") (_get_headers self)
          (request_data (fst (op_request op)) (snd (op_request op)))
     = Raise e ->
     is_request_exception (exn_cls e) = true ->
     run post self op = Return (JList []) \/
     run post self op = Return JNull \/
     run post self op = Return (failure (exn_msg e))).
Proof.
  intros sent. subst sent.
  split; [intros; by eapply call_api_unauthorized|].
  split; [intros; by eapply call_api_post_raises|].
  split; [intros; by eapply call_api_error_status|].
  split; [intros; by eapply call_api_json_raises|].
  split; [intros; by eapply call_api_success|].
  split; [intros; by eapply call_api_post_escapes|].
  split; [intros; by eapply call_api_json_escapes|].
  split; [intros; by eapply call_api_raise_class|].
  split.
  - intros op v Hv. rewrite run_eq, Hv. apply op_result_returns.
  - intros op e Hp He. rewrite run_eq.
    rewrite (call_api_post_raises post self _ _ e Hp He).
    apply op_result_failure.
Qed.

Lemma call_api_spec_witness :
  call_api refused local_client "logseq.Editor.getAllPages" JNull
  = Return (failure "[Errno 111] Connection refused") /\
  call_api (answers_unreadable 200 (Exn JSONDecodeError "Expecting value"))
    local_client "logseq.Editor.getAllPages" JNull
  = Return (failure "Expecting value").
Proof.
  split.
  - destruct (call_api_spec refused local_client
                "logseq.Editor.getAllPages" JNull)
      as (_ & Hraise & _).
    apply (Hraise (Exn ConnectionError "[Errno 111] Connection refused"));
      reflexivity.
  - destruct (call_api_spec
                (answers_unreadable 200 (Exn JSONDecodeError "Expecting value"))
                local_client "logseq.Editor.getAllPages" JNull)
      as (_ & _ & _ & Hjson & _).
    apply (Hjson (Response 200 "" (Raise (Exn JSONDecodeError
                                             "Expecting value")))
             (Exn JSONDecodeError "Expecting value"));
      [reflexivity| |reflexivity|reflexivity].
    unfold error_status. simpl. lia.
Defined.

(** C7 (as stated) fails twice.  A body that holds an integer of more
    than 4300 digits makes [response.json()] raise a [ValueError], which
    is no [RequestException]: [call_api] raises it, and so does
    [get_all_pages].  And a status that is not 2xx and no error status
    either, 300, passes [raise_for_status]: the body comes back, not the
    sentinel. *)
Lemma call_api_escape_and_status_300 :
  (call_api (answers_unreadable 200 digit_limit_error) local_client
     "logseq.Editor.getAllPages" JNull = Raise digit_limit_error /\
   get_all_pages (answers_unreadable 200 digit_limit_error) local_client
   = Raise digit_limit_error) /\
  (~ (200 <= 300 < 300) /\
   call_api (answers 300 "" (JList [JInt 1])) local_client
     "logseq.Editor.getAllPages" JNull = Return (JList [JInt 1]) /\
   forall msg,
     call_api (answers 300 "" (JList [JInt 1])) local_client
       "logseq.Editor.getAllPages" JNull <> Return (failure msg)).
Proof.
  split; [split; by vm_compute|].
  split; [lia|]. split; [by vm_compute|].
  intros msg. by vm_compute.
Qed.

(** * Further properties of the client *)

(** ** Construction and headers *)

(** X1: [__init__] takes a non-empty [api_url] or [token] argument as it
    is; a missing or empty argument falls back to the environment,
    [LOGSEQ_API_URL] (or [http://localhost:12315] when unset) and
    [LOGSEQ_TOKEN] (or no token when unset). *)
Theorem init_spec (env : gmap string string) (url tok : option string) :
  (forall u, url = Some u -> u <> "" -> api_url (init env url tok) = u) /\
  (url = None \/ url = Some "" ->
   api_url (init env url tok)
   = default "http://localhost:12315" (env !! "LOGSEQ_API_URL")) /\
  (forall t, tok = Some t -> t <> "" -> token (init env url tok) = Some t) /\
  (tok = None \/ tok = Some "" ->
   token (init env url tok) = env !! "LOGSEQ_TOKEN").
Proof.
  assert (Hne : forall s : string, s <> "" -> (s =? "")%string = false)
    by (intros s Hs; by apply String.eqb_neq).
  split; [|split; [|split]].
  - intros u -> Hu. simpl. by rewrite (Hne u Hu).
  - by intros [-> | ->].
  - intros t -> Ht. simpl. by rewrite (Hne t Ht).
  - by intros [-> | ->].
Qed.

Lemma init_spec_witness :
  api_url (init {[ "LOGSEQ_API_URL" := "http://env:1" ]}
             (Some "http://arg:2") None) = "http://arg:2" /\
  api_url (init {[ "LOGSEQ_API_URL" := "http://env:1" ]} (Some "") None)
  = "http://env:1" /\
  token (init ∅ None (Some "secret")) = Some "secret" /\
  token (init ∅ None None) = None.
Proof.
  split; [|split; [|split]].
  - destruct (init_spec {[ "LOGSEQ_API_URL" := "http://env:1" ]}
                (Some "http://arg:2") None) as (H & _).
    apply H; [reflexivity | discriminate].
  - destruct (init_spec {[ "LOGSEQ_API_URL" := "http://env:1" ]}
                (Some "") None) as (_ & H & _).
    rewrite H; [reflexivity | by right].
  - destruct (init_spec ∅ None (Some "secret")) as (_ & _ & H & _).
    apply H; [reflexivity | discriminate].
  - destruct (init_spec ∅ None None) as (_ & _ & _ & H).
    rewrite H; [reflexivity | by left].
Defined.

(** X2: the client never reads [LOGSEQ_API_TOKEN], the variable the 401
    message names: setting it changes nothing, and with no [token]
    argument and no [LOGSEQ_TOKEN] the only header sent is
    [Content-Type]. *)
Theorem init_ignores_api_token
    (env : gmap string string) (url tok : option string) (v : string) :
  init (<[ "LOGSEQ_API_TOKEN" := v ]> env) url tok = init env url tok /\
  (tok = None -> env !! "LOGSEQ_TOKEN" = None ->
   _get_headers (init (<[ "LOGSEQ_API_TOKEN" := v ]> env) url tok)
   = {[ "Content-Type" := "application/json" ]}).
Proof.
  assert (E : init (<[ "LOGSEQ_API_TOKEN" := v ]> env) url tok
              = init env url tok).
  { unfold init. by rewrite !lookup_insert_ne. }
  split; [exact E|]. intros -> Hn. rewrite E.
  unfold _get_headers, init. simpl. by rewrite Hn.
Qed.

Lemma init_ignores_api_token_witness :
  _get_headers (init (<[ "LOGSEQ_API_TOKEN" := "secret" ]> ∅) None None)
  = {[ "Content-Type" := "application/json" ]}.
Proof.
  destruct (init_ignores_api_token ∅ None None "secret") as (_ & H).
  apply H; reflexivity.
Defined.

(** X3: [_get_headers] always carries [Content-Type: application/json];
    it carries [Authorization: Bearer <token>] exactly when the token is
    a non-empty string, and no other header. *)
Theorem get_headers_spec (self : LogseqAPIClient) :
  _get_headers self !! "Content-Type" = Some "application/json" /\
  (forall t, token self = Some t -> t <> "" ->
     _get_headers self !! "Authorization" = Some ("Bearer " ++ t)) /\
  (token self = None \/ token self = Some "" ->
     _get_headers self !! "Authorization" = None) /\
  (forall k, k <> "Content-Type" -> k <> "Authorization" ->
     _get_headers self !! k = None).
Proof.
  unfold _get_headers. destruct self as [u [t|]]; simpl.
  - destruct (String.eqb_spec t "") as [->|Ht]; simpl.
    + split; [done|]. split; [by intros ? [= <-] ?|].
      split; [done|]. intros k Hc Ha. by rewrite lookup_singleton_ne.
    + split; [by rewrite lookup_insert_ne|].
      split; [intros ? [= <-] _; by rewrite lookup_insert_eq|].
      split; [by intros [?|[= ->]]|].
      intros k Hc Ha. rewrite lookup_insert_ne by done.
      by rewrite lookup_singleton_ne.
  - split; [done|]. split; [done|]. split; [done|].
    intros k Hc Ha. by rewrite lookup_singleton_ne.
Qed.

Lemma get_headers_spec_witness :
  _get_headers (Client "http://localhost:12315" (Some "abc"))
    !! "Authorization" = Some "Bearer abc" /\
  _get_headers (Client "http://localhost:12315" (Some ""))
    !! "Authorization" = None.
Proof.
  split.
  - destruct (get_headers_spec (Client "http://localhost:12315" (Some "abc")))
      as (_ & H & _).
    apply H; [reflexivity | discriminate].
  - destruct (get_headers_spec (Client "http://localhost:12315" (Some "")))
      as (_ & _ & H & _).
    apply H. by right.
Defined.

(** ** The request *)

Lemma request_data_list (method : string) (l : list json) :
  request_data method (JList l)
  = JDict {[ "method" := JStr method; "args" := JList l ]}.
Proof. by destruct l. Qed.

Lemma call_api_no_args
    (post : string -> gmap string string -> json -> result response)
    (self : LogseqAPIClient) (method : string) :
  call_api post self method JNull = call_api post self method (JList []).
Proof. reflexivity. Qed.

(** X4: [call_api] sends [args] as a list in every case: no [args] and
    the empty list give the same body, with ["args": []], and so the same
    call; a list is sent as it is. *)
Theorem request_data_args (method : string) :
  request_data method JNull = request_data method (JList []) /\
  (forall l,
     request_data method (JList l)
     = JDict {[ "method" := JStr method; "args" := JList l ]}) /\
  (forall post self,
     call_api post self method JNull
     = call_api post self method (JList [])).
Proof.
  split; [done|]. split; [apply request_data_list|].
  intros post self. apply call_api_no_args.
Qed.

(** X5: every operation is one [call_api] whose body has the two keys
    [method] and [args], with [args] a list of at most three values,
    followed by the lines that treat the response. *)
Theorem run_request_body
    (post : string -> gmap string string -> json -> result response)
    (self : LogseqAPIClient) (op : operation) :
  exists l : list json,
    run post self op
    = call_api post self (fst (op_request op)) (JList l) ≫= op_result op /\
    request_data (fst (op_request op)) (snd (op_request op))
    = JDict {[ "method" := JStr (fst (op_request op));
               "args" := JList l ]} /\
    (List.length l <= 3)%nat.
Proof.
  assert (Hw : forall params properties,
             (List.length (with_properties params properties)
              <= S (List.length params))%nat).
  { intros params properties. unfold with_properties.
    destruct (truthy properties); [|lia].
    rewrite length_app. simpl. lia. }
  pose proof request_data_list as Hb.
  pose proof (call_api_no_args post self) as Hc.
  destruct op; simpl.
  1, 2: exists []; split;
    [ unfold get_current_graph, get_all_pages; rewrite Hc;
      by destruct (call_api _ _ _ _)
    | split; [done|simpl; lia] ].
  all: eexists; split; [reflexivity|]; split; [apply Hb|].
  all: try (simpl; lia).
  all: eapply Nat.le_trans; [apply Hw|simpl; lia].
Qed.

(** ** What [call_api] lets through *)

(** X6: [call_api] raises no exception of its own and lets no
    [RequestException] through: what escapes it was raised by
    [requests.post], or by [response.json()] on a response whose status
    passed [raise_for_status], and is not a [RequestException]. *)
Theorem call_api_raise_origin
    (post : string -> gmap string string -> json -> result response)
    (self : LogseqAPIClient) (method : string) (args : json) (e : exn) :
  call_api post self method args = Raise e ->
  is_request_exception (exn_cls e) = false /\
  (post (api_url self ++ "/api") (_get_headers self)
        (request_data method args) = Raise e \/
   exists r,
     post (api_url self ++ "/api") (_get_headers self)
          (request_data method args) = Return r /\
     ~ error_status (status_code r) /\
     json_outcome r = Raise e).
Proof.
  unfold call_api.
  destruct (post _ _ _) as [r|e0] eqn:Hp; simpl.
  - destruct (Z.eqb_spec (status_code r) 401) as [E|E]; [done|].
    unfold raise_for_status, error_status.
    destruct (Z.leb_spec 400 (status_code r));
      destruct (Z.ltb_spec (status_code r) 600); simpl;
      try (by destruct (is_request_exception HTTPError)).
    all: destruct (json_outcome r) as [v|e1] eqn:Hj; simpl;
      [ destruct (py_and_result v) as [b ->]; simpl; by destruct b
      | destruct (is_request_exception (exn_cls e1)) eqn:He1;
        [done|intros [= <-]; split; [done|right; exists r;
                                      split; [done|split; [lia|done]]]] ].
  - destruct (is_request_exception (exn_cls e0)) eqn:He0; [done|].
    intros [= <-]. split; [done|by left].
Qed.

Lemma call_api_raise_origin_witness :
  call_api (fun _ _ _ => Raise (Exn ValueError "boom")) local_client
    "logseq.Editor.getAllPages" JNull = Raise (Exn ValueError "boom") /\
  is_request_exception ValueError = false.
Proof.
  split; [reflexivity|].
  destruct (call_api_raise_origin
              (fun _ _ _ => Raise (Exn ValueError "boom")) local_client
              "logseq.Editor.getAllPages" JNull (Exn ValueError "boom")
              eq_refl) as (H & _).
  exact H.
Defined.

(** X7: on an error status, 400 to 599, the body of the response is not
    read: two responses with the same status and the same HTTP error
    message give the same sentinel, whatever their bodies hold. *)
Theorem call_api_error_body_ignored
    (post1 post2 : string -> gmap string string -> json -> result response)
    (self : LogseqAPIClient) (method : string) (args : json)
    (r1 r2 : response) :
  post1 (api_url self ++ "/api") (_get_headers self)
        (request_data method args) = Return r1 ->
  post2 (api_url self ++ "/api") (_get_headers self)
        (request_data method args) = Return r2 ->
  status_code r1 = status_code r2 ->
  http_error_msg r1 = http_error_msg r2 ->
  error_status (status_code r1) ->
  call_api post1 self method args = call_api post2 self method args /\
  exists msg, call_api post1 self method args = Return (failure msg).
Proof.
  intros H1 H2 Hs Hm He.
  destruct (Z.eq_dec (status_code r1) 401) as [E|E].
  - rewrite (call_api_unauthorized post1 self method args r1 H1 E).
    rewrite (call_api_unauthorized post2 self method args r2 H2)
      by congruence.
    split; [done|by eexists].
  - rewrite (call_api_error_status post1 self method args r1 H1 E He).
    rewrite (call_api_error_status post2 self method args r2 H2)
      by congruence.
    rewrite Hm. split; [done|by eexists].
Qed.

Lemma call_api_error_body_ignored_witness :
  call_api
    (answers 500 "500 Server Error" (JDict {[ "error" := JStr "details" ]}))
    local_client "logseq.Editor.getPage" (JList [JStr "p"])
  = call_api (answers 500 "500 Server Error" (JList []))
      local_client "logseq.Editor.getPage" (JList [JStr "p"]).
Proof.
  assert (He : error_status 500) by (unfold error_status; lia).
  destruct (call_api_error_body_ignored
              (answers 500 "500 Server Error"
                 (JDict {[ "error" := JStr "details" ]}))
              (answers 500 "500 Server Error" (JList []))
              local_client "logseq.Editor.getPage" (JList [JStr "p"])
              _ _ eq_refl eq_refl eq_refl eq_refl He) as (H & _).
  exact H.
Defined.

(** ** Operations end to end *)

(** X8: when the endpoint answers the request of an operation with a
    status that is no error status and a JSON body, the operation returns
    what its own lines make of that body, and it does return. *)
Theorem run_success
    (post : string -> gmap string string -> json -> result response)
    (self : LogseqAPIClient) (op : operation) (r : response) (v : json) :
  post (api_url self ++ "/api") (_get_headers self)
       (request_data (fst (op_request op)) (snd (op_request op)))
  = Return r ->
  ~ error_status (status_code r) ->
  json_outcome r = Return v ->
  run post self op = op_result op v /\ returns (run post self op).
Proof.
  intros Hp Hs Hj. rewrite run_eq.
  rewrite (call_api_success post self _ _ r v Hp Hs Hj).
  split; [done|]. apply op_result_returns.
Qed.

Lemma run_success_witness :
  run (answers 200 "" JNull) local_client (GetPageOp "NoSuchPage")
  = Return JNull.
Proof.
  assert (Hs : ~ error_status 200) by (unfold error_status; lia).
  destruct (run_success (answers 200 "" JNull) local_client
              (GetPageOp "NoSuchPage") _ JNull eq_refl Hs eq_refl)
    as (H & _).
  exact H.
Defined.

Lemma failure_results_intro
    (post : string -> gmap string string -> json -> result response)
    (self : LogseqAPIClient) (msg : string) :
  (forall method args,
     call_api post self method args = Return (failure msg)) ->
  failure_results post self msg.
Proof.
  intros H. unfold failure_results,
    get_current_graph, get_all_pages, get_page, get_page_blocks,
    search_blocks, create_page, create_block, update_block, get_block,
    get_block_properties, get_page_linked_references, delete_page,
    remove_block, insert_block, move_block; simpl.
  repeat split; intros; by rewrite H.
Qed.

(** X9: when every request fails with a [RequestException] (the
    endpoint is down), the list reads and the search return the empty
    list, [get_page] and [get_block] return [None], and the mutations,
    [get_block_properties] and [get_current_graph] return the sentinel
    with the message of the exception. *)
Theorem unreachable_endpoint
    (post : string -> gmap string string -> json -> result response)
    (self : LogseqAPIClient) (e : exn) :
  is_request_exception (exn_cls e) = true ->
  (forall url headers data, post url headers data = Raise e) ->
  failure_results post self (exn_msg e).
Proof.
  intros He Hp. apply failure_results_intro. intros method args.
  by apply call_api_post_raises.
Qed.

Lemma unreachable_endpoint_witness :
  failure_results refused local_client "[Errno 111] Connection refused".
Proof.
  apply (unreachable_endpoint refused local_client
           (Exn ConnectionError "[Errno 111] Connection refused")).
  - reflexivity.
  - reflexivity.
Defined.

(** X10: when the endpoint answers every request with status 401, the
    list reads and the search return the empty list, [get_page] and
    [get_block] return [None], and the other operations return the 401
    sentinel. *)
Theorem unauthorized_endpoint
    (post : string -> gmap string string -> json -> result response)
    (self : LogseqAPIClient) :
  (forall url headers data,
     exists r, post url headers data = Return r /\ status_code r = 401) ->
  failure_results post self unauthorized_msg.
Proof.
  intros Hp. apply failure_results_intro. intros method args.
  destruct (Hp (api_url self ++ "/api") (_get_headers self)
              (request_data method args)) as (r & Hr & Hs).
  by eapply call_api_unauthorized.
Qed.

Lemma unauthorized_endpoint_witness :
  failure_results unauthorized local_client unauthorized_msg.
Proof.
  apply (unauthorized_endpoint unauthorized local_client).
  intros url headers data. eexists. split; reflexivity.
Defined.

(** ** More on the reads *)

(** X11: [get_page] and [get_block] treat a response alike, except a
    mapping that has both [error] and a [result] other than [None]. *)
Theorem single_reads_agree (response : json) :
  get_page_result response = get_block_result response <->
  ~ (exists m e v, response = JDict m /\ m !! "error" = Some e /\
                   m !! "result" = Some v /\ v <> JNull).
Proof.
  destruct response as [| | | | | l | m];
    try (split; [by intros _ (? & ? & ? & [=] & _)|done]).
  unfold get_page_result, get_block_result. simpl is_None.
  simpl isinstance_dict. cbv iota.
  destruct (m !! "error") as [e|] eqn:He;
    destruct (m !! "result") as [v|] eqn:Hr; dict_step.
  - split.
    + intros [= ->] (m' & e' & v' & [= <-] & _ & Hv & Hn). congruence.
    + intros Hn. f_equal. destruct (decide (is_None v = true)) as [Hv|Hv].
      * by destruct v.
      * exfalso. apply Hn. exists m, e, v. repeat split; try done.
        intros ->. by apply Hv.
  - split; [|done]. intros _ (m' & e' & v' & [= <-] & _ & Hv & _).
    congruence.
  - split; [|done]. intros _ (m' & e' & v' & [= <-] & He' & _).
    congruence.
  - split; [|done]. intros _ (m' & e' & v' & [= <-] & He' & _).
    congruence.
Qed.

(** X12: [get_block] returns [None] exactly for the response [None],
    for a mapping with [error], and for a mapping whose [result] is
    [None]. *)
Theorem get_block_none_iff (response : json) :
  get_block_result response = Return JNull <->
  response = JNull \/
  exists m, response = JDict m /\
            (is_Some (m !! "error") \/ m !! "result" = Some JNull).
Proof.
  destruct response as [| | | | | l | m];
    try (split; [done|by intros [[=]|(? & [=] & _)]]).
  { split; [by left|done]. }
  unfold get_block_result. simpl is_None. simpl isinstance_dict. cbv iota.
  destruct (m !! "error") as [e|] eqn:He;
    destruct (m !! "result") as [v|] eqn:Hr; dict_step.
  - split; [|done]. intros _. right. exists m. split; [done|]. left.
    rewrite He. by eexists.
  - split; [|done]. intros _. right. exists m. split; [done|]. left.
    rewrite He. by eexists.
  - split.
    + intros [= ->]. right. exists m. split; [done|by right].
    + intros [[=]|(m' & [= <-] & [[? Hs]|Hs])]; congruence.
  - split; [done|].
    intros [[=]|(m' & [= <-] & [[? Hs]|Hs])]; congruence.
Qed.

(** X13: [get_page] returns [None] exactly for the response [None], for
    a mapping whose [result] is [None], and for a mapping with [error] and
    no [result]. *)
Theorem get_page_none_iff (response : json) :
  get_page_result response = Return JNull <->
  response = JNull \/
  exists m, response = JDict m /\
            (m !! "result" = Some JNull \/
             (m !! "result" = None /\ is_Some (m !! "error"))).
Proof.
  destruct response as [| | | | | l | m];
    try (split; [done|by intros [[=]|(? & [=] & _)]]).
  { split; [by left|done]. }
  unfold get_page_result. simpl is_None. simpl isinstance_dict. cbv iota.
  destruct (m !! "result") as [v|] eqn:Hr;
    destruct (m !! "error") as [e|] eqn:He; dict_step.
  - split.
    + intros [= ->]. right. exists m. split; [done|by left].
    + intros [[=]|(m' & [= <-] & [Hs|[Hs _]])]; congruence.
  - split.
    + intros [= ->]. right. exists m. split; [done|by left].
    + intros [[=]|(m' & [= <-] & [Hs|[Hs _]])]; congruence.
  - split; [|done]. intros _. right. exists m. split; [done|]. right.
    split; [done|]. rewrite He. by eexists.
  - split; [done|].
    intros [[=]|(m' & [= <-] & [Hs|[_ [? Hs]]])]; congruence.
Qed.

(** X14: [search_blocks] returns the empty list for every response that
    is not a list and holds neither [blocks] nor [result]: a mapping with
    other keys only, a string, a number, a boolean. *)
Theorem search_blocks_fall_through (response : json) :
  isinstance_list response = false ->
  (forall m, response = JDict m ->
     m !! "blocks" = None /\ m !! "result" = None) ->
  search_blocks_result response = Return (JList []).
Proof.
  intros Hl Hm. destruct response as [| | | | | l | m]; try done.
  destruct (Hm m eq_refl) as [Hb Hr].
  unfold search_blocks_result, search_blocks_dict. simpl is_None.
  simpl isinstance_dict. cbv iota.
  destruct (m !! "error") eqn:He; by dict_step.
Qed.

Lemma search_blocks_fall_through_witness :
  search_blocks_result (JDict {[ "hits" := JList [JInt 1] ]})
  = Return (JList []) /\
  search_blocks_result (JStr "blocks") = Return (JList []).
Proof.
  split.
  - apply search_blocks_fall_through; [reflexivity|].
    intros m [= <-]. split; reflexivity.
  - apply search_blocks_fall_through; [reflexivity|].
    intros m [=].
Defined.

(** X15: [get_block_properties] returns a value for every response;
    that value is a mapping exactly when the response does not hold
    something else than a mapping under [result]; and a response that is
    no mapping, a list, a scalar or [None], becomes the empty mapping. *)
Theorem get_block_properties_mapping (response : json) :
  (exists v,
     get_block_properties_result response = Return v /\
     (isinstance_dict v = true <->
      forall m w, response = JDict m -> m !! "result" = Some w ->
                  isinstance_dict w = true)) /\
  (isinstance_dict response = false ->
   get_block_properties_result response = Return (JDict ∅)).
Proof.
  unfold get_block_properties_result. split.
  - destruct response as [| | | | | l | m];
      try (exists (JDict ∅); split; [done|]; split; [by intros _ ? ? [=]|done]).
    simpl isinstance_dict. unfold py_and.
    destruct (m !! "result") as [w|] eqn:Hr; dict_step.
    + exists w. split; [done|]. split.
      * intros Hw m' w' [= <-] Hr'. congruence.
      * intros H. by apply (H m).
    + exists (JDict m). split; [done|]. split; [|done].
      intros _ m' w' [= <-] Hr'. congruence.
  - intros Hd. by rewrite Hd.
Qed.

Lemma get_block_properties_mapping_witness :
  get_block_properties_result (JList [JInt 1]) = Return (JDict ∅).
Proof.
  destruct (get_block_properties_mapping (JList [JInt 1])) as (_ & H).
  apply H. reflexivity.
Defined.
